(** * The [help] subcommand of the wasmer-js command line tool

    A shallow embedding of [packages/cli/src/commands/help.ts] and the
    properties its usage text and its dispatch obey.

    The file under study is one module.  It builds a [Command] object for
    the [help] subcommand and exports it as [helpCommand]; the callback of
    that object, [runHelp], looks at the first positional argument and
    prints the usage of the tool's help command or of one of the two
    sibling subcommands it imports, [runCommand] and [versionCommand].

    Conventions of the embedding:
    - standard output is the sequence of messages handed to [console.log],
      one list entry per call (the newline each call appends is implied);
    - the imported command objects live in an environment that every
      closure reads when it is called, never when it is created;
    - reading an array element is a checked operation, so that "no read
      past the end of [args]" is a statement about the code and not a
      convention of the model. *)

From Stdlib Require Import String Ascii List Arith Bool Lia.
Import ListNotations.
Open Scope string_scope.

(** ** Data *)

(** The data fields of an imported command object that [help.ts] reads:
    [runCommand.name], [runCommand.description], and likewise for
    [versionCommand]. *)
Record Descriptor : Type := {
  name : string;
  description : string
}.

(** The two module-level bindings imported from [./run] and [./version].
    They are objects shared with the rest of the program: their fields can
    be assigned between two calls of [runHelp]. *)
Record Env : Type := {
  runCommand : Descriptor;
  versionCommand : Descriptor
}.

(** What a call can observe and change: the imported objects and what has
    been written to standard output so far. *)
Record World : Type := {
  env : Env;
  stdout : list string
}.

Definition emit (msgs : list string) (w : World) : World :=
  {| env := env w; stdout := (stdout w ++ msgs)%list |}.

Definition assign (f : Env -> Env) (w : World) : World :=
  {| env := f (env w); stdout := stdout w |}.

(** ** Effects *)

(** The one fault the embedding can signal: a read of [xs[i]] with [i]
    outside [xs].  (JavaScript evaluates such a read to [undefined]; making
    it a fault turns "the code never reads past the end of [args]" into a
    property that can be proved of [runHelp].) *)
Inductive Error : Type :=
| OutOfBounds (i : nat).

Inductive Result (A : Type) : Type :=
| Ok (a : A) (w : World)
| Throw (e : Error).
Arguments Ok {A} a w.
Arguments Throw {A} e.

Definition IO (A : Type) : Type := World -> Result A.

Definition ret {A} (a : A) : IO A := fun w => Ok a w.

Definition bind {A B} (m : IO A) (k : A -> IO B) : IO B :=
  fun w => match m w with
           | Ok a w' => k a w'
           | Throw e => Throw e
           end.

Declare Scope io_scope.
Delimit Scope io_scope with io.
Bind Scope io_scope with IO.
Notation "x <- m ;; k" := (bind m (fun x => k))
  (at level 61, m at next level, right associativity) : io_scope.
Notation "m ;; k" := (bind m (fun _ => k))
  (at level 61, right associativity) : io_scope.
Open Scope io_scope.

(** [console.log(s)] *)
Definition console_log (s : string) : IO unit :=
  fun w => Ok tt (emit [s] w).

(** [xs[i]], checked. *)
Definition index (xs : list string) (i : nat) : IO string :=
  fun w => match nth_error xs i with
           | Some s => Ok s w
           | None => Throw (OutOfBounds i)
           end.
Notation "xs .[ i ]" := (index xs i) (at level 1, format "xs .[ i ]") : io_scope.

(** Reading a module-level binding, at the time of the read. *)
Definition imported (binding : Env -> Descriptor) : IO Descriptor :=
  fun w => Ok (binding (env w)) w.

(** Running an operation that renders text from the imported objects and
    logs it, message by message. *)
Definition print (render : Env -> list string) : IO unit :=
  fun w => Ok tt (emit (render (env w)) w).

(** A field assignment on an imported object, such as
    [runCommand.description = "..."], done by some other part of the
    program before a call. *)
Definition mutate (f : Env -> Env) : IO unit :=
  fun w => Ok tt (assign f w).

(** ** The [Command] object of this module *)

(** Function values stored in a [Command] are named by a label; [call]
    below resolves the label to the code.  ([runHelp] mentions
    [helpCommand] and [helpCommand] holds [runHelp]: the label breaks the
    cycle that JavaScript resolves by late binding.) *)
Inductive Callback : Type :=
| fn_runHelp.

Module Command.
(** The configuration object handed to [new Command({...})]. *)
Record t : Type := {
  name : string;
  description : string;
  runCallback : Callback;
  getHelpBody : Env -> string
}.
End Command.

(** [const command = new Command({ name: "help", ... })].  The help body
    is the template literal of lines 29-39, cut at its four
    interpolations; the blank that ends line 35 and the four blanks that
    make up line 36 are literals of their own, to keep them visible. *)
Definition command : Command.t := {|
  Command.name := "help";
  Command.description := "Show the usage of the passed subcommand";
  Command.runCallback := fn_runHelp;
  Command.getHelpBody := fun e =>
    "USAGE:

$ wasmer-js help [SUBCOMMAND]

ARGUMENTS:

[SUBCOMMAND] - The subcommand we want to see the help message for" ++ " " ++ "
" ++ "    " ++ "
    The available subcommands (other than help) are:
    " ++ name (runCommand e) ++ " - " ++ description (runCommand e) ++ "
    " ++ name (versionCommand e) ++ " - " ++ description (versionCommand e)
|}.

(** [export const helpCommand = command] *)
Definition helpCommand : Command.t := command.

Section Dispatcher.

(** The [help] method of class [Command] is declared in [../command],
    and the [help] methods of [runCommand] and [versionCommand] in
    [./run] and [./version], outside this module.  They are parameters
    of the dispatcher: each renders, from the imported objects as they
    are when it is called, the messages it logs. *)
Variable Command_help : Command.t -> Env -> list string.
Variable runCommand_help : Env -> list string.
Variable versionCommand_help : Env -> list string.

(** [const runHelp = (args: string[]) => { ... }], lines 6-22.  Each
    [return] of the source ends a branch of the nested conditionals. *)
Definition runHelp (args : list string) : IO unit :=
  own <- (if (List.length args =? 0)%nat then ret true
          else a0 <- args.[0] ;; ret (a0 =? "help")%string) ;;
  if (own : bool) then
    print (Command_help helpCommand)
  else
    a0 <- args.[0] ;;
    rc <- imported runCommand ;;
    if (a0 =? name rc)%string then
      print runCommand_help
    else
      a0 <- args.[0] ;;
      vc <- imported versionCommand ;;
      if (a0 =? name vc)%string then
        print versionCommand_help
      else
        a0 <- args.[0] ;;
        console_log ("Unrecognized subcommand: " ++ a0) ;;
        print (Command_help helpCommand).

(** Resolving a callback label. *)
Definition call (f : Callback) : list string -> IO unit :=
  match f with
  | fn_runHelp => runHelp
  end.

End Dispatcher.

(** ** The specification's reading of the module *)

(** Line feed, the separator of the lines of a usage block. *)
Definition LF : string := String (ascii_of_nat 10) EmptyString.

(** The usage block as the specification prints it (section 6): eleven
    lines, the seventh ending in a blank, the eighth made of four blanks,
    the last two interpolated from the run and the version descriptor. *)
Definition usage_block (run version : Descriptor) : string :=
  String.concat LF
    [ "USAGE:";
      "";
      "$ wasmer-js help [SUBCOMMAND]";
      "";
      "ARGUMENTS:";
      "";
      "[SUBCOMMAND] - The subcommand we want to see the help message for ";
      "    ";
      "    The available subcommands (other than help) are:";
      "    " ++ name run ++ " - " ++ description run;
      "    " ++ name version ++ " - " ++ description version ].

(** Modelled from the spec: the [help] method of class [Command], whose
    file [../command] is missing.  By sections 4.1 and 6 the help
    operation of the dispatcher prints "this dispatcher's own usage block",
    the text its help-body generator returns: one message, the result of
    [getHelpBody()] at the time of the call. *)
Definition Command_help_spec (c : Command.t) (e : Env) : list string :=
  [Command.getHelpBody c e].

(** The rows of the decision table of section 4.1, top to bottom. *)
Inductive Row : Type :=
| row_own
| row_run
| row_version
| row_other.

Definition rows : list Row := [row_own; row_run; row_version; row_other].

(** [args[0] == s], false when there is no [args[0]]. *)
Definition first_is (args : list string) (s : string) : bool :=
  match args with
  | [] => false
  | a :: _ => (a =? s)%string
  end.

(** The "Condition" column of the table. *)
Definition row_cond (e : Env) (args : list string) (r : Row) : bool :=
  match r with
  | row_own => match args with [] => true | _ => first_is args "help" end
  | row_run => first_is args (name (runCommand e))
  | row_version => first_is args (name (versionCommand e))
  | row_other => true
  end.

(** "Evaluated in order": the row that fires is the first whose condition
    holds. *)
Definition fired (e : Env) (args : list string) : option Row :=
  find (row_cond e args) rows.

Section Table.

Variable Command_help : Command.t -> Env -> list string.
Variable runCommand_help : Env -> list string.
Variable versionCommand_help : Env -> list string.

(** The "Action" column of the table: what the row writes. *)
Definition row_action (e : Env) (args : list string) (r : Row) : list string :=
  match r with
  | row_own => Command_help helpCommand e
  | row_run => runCommand_help e
  | row_version => versionCommand_help e
  | row_other =>
      ("Unrecognized subcommand: " ++ hd "" args) :: Command_help helpCommand e
  end.

End Table.

(** What a finished call has written, if it finished. *)
Definition stdout_of {A} (r : Result A) : option (list string) :=
  match r with
  | Ok _ w => Some (stdout w)
  | Throw _ => None
  end.

(** ** Test doubles *)

(** Stand-ins for the two imported commands, used where a property is
    evaluated on a concrete input. *)
Definition double_run : Descriptor :=
  {| name := "run"; description := "Run a WebAssembly file" |}.

Definition double_version : Descriptor :=
  {| name := "version"; description := "Print the version" |}.

Definition double_env : Env :=
  {| runCommand := double_run; versionCommand := double_version |}.

Definition double_Command_help (c : Command.t) (e : Env) : list string :=
  ["HELP of " ++ Command.name c].

Definition double_run_help (e : Env) : list string :=
  ["RUN HELP of " ++ name (runCommand e)].

Definition double_version_help (e : Env) : list string :=
  ["VERSION HELP of " ++ name (versionCommand e)].

Definition double_world : World := {| env := double_env; stdout := [] |}.

(** A registry in which the run command has been registered as [exec]. *)
Definition renamed_run_env : Env :=
  {| runCommand := {| name := "exec"; description := description double_run |};
     versionCommand := double_version |}.

(** A registry in which the version command has been registered as [v]. *)
Definition renamed_version_env : Env :=
  {| runCommand := double_run;
     versionCommand := {| name := "v"; description := description double_version |} |}.

(** A registry in which both siblings have been registered as [version]. *)
Definition shadowing_env : Env :=
  {| runCommand := {| name := "version"; description := description double_run |};
     versionCommand := double_version |}.

(** A registry in which both siblings answer to the name [help]. *)
Definition clashing_env : Env :=
  {| runCommand := {| name := "help"; description := description double_run |};
     versionCommand := {| name := "help"; description := description double_version |} |}.

(** ** Measures and reassignments used to state further properties *)

(** The number of line feeds in a string: one less than the number of
    lines a terminal shows for it. *)
Fixpoint count_LF (s : string) : nat :=
  match s with
  | EmptyString => 0
  | String c s' =>
      (if Ascii.eqb c (ascii_of_nat 10) then 1 else 0) + count_LF s'
  end.

(** The assignment [runCommand.name = n]. *)
Definition rename_run (n : string) (e : Env) : Env :=
  {| runCommand := {| name := n; description := description (runCommand e) |};
     versionCommand := versionCommand e |}.

(** A world with the given imported objects and nothing written yet. *)
Definition fresh (e : Env) : World := {| env := e; stdout := [] |}.

(** * Properties *)

(** ** Strings, output and the monad *)

Lemma append_assoc (s t u : string) : (s ++ t) ++ u = s ++ (t ++ u).
Proof.
  induction s as [| c s IH]; simpl.
  - reflexivity.
  - now rewrite IH.
Qed.

Lemma emit_emit (l1 l2 : list string) (w : World) :
  emit l2 (emit l1 w) = emit (l1 ++ l2)%list w.
Proof.
  unfold emit; simpl. now rewrite app_assoc.
Qed.

Lemma env_emit (l : list string) (w : World) : env (emit l w) = env w.
Proof. reflexivity. Qed.

(** ** The usage text *)

(** The template literal of the source and the block of the specification
    are the same string, whatever the descriptors hold. *)
Lemma getHelpBody_usage_block (e : Env) :
  Command.getHelpBody helpCommand e = usage_block (runCommand e) (versionCommand e).
Proof.
  unfold usage_block, helpCommand, command, LF; cbn.
  rewrite !append_assoc; cbn.
  reflexivity.
Qed.

(** ** The dispatch, branch by branch *)

Section Dispatch.

Variable Command_help : Command.t -> Env -> list string.
Variable runCommand_help : Env -> list string.
Variable versionCommand_help : Env -> list string.

Local Abbreviation runHelp' := (runHelp Command_help runCommand_help versionCommand_help).
Local Abbreviation own_help := (Command_help helpCommand).

(** With no argument the first disjunct of line 7 decides, and
    [args[0]] is not read. *)
Lemma runHelp_nil (w : World) :
  runHelp' [] w = Ok tt (emit (own_help (env w)) w).
Proof. reflexivity. Qed.

(** With an argument, the three comparisons of lines 7, 12 and 15 are
    tried in that order. *)
Lemma runHelp_cons (a : string) (rest : list string) (w : World) :
  runHelp' (a :: rest) w =
  if (a =? "help")%string then Ok tt (emit (own_help (env w)) w)
  else if (a =? name (runCommand (env w)))%string then
    Ok tt (emit (runCommand_help (env w)) w)
  else if (a =? name (versionCommand (env w)))%string then
    Ok tt (emit (versionCommand_help (env w)) w)
  else
    Ok tt (emit (("Unrecognized subcommand: " ++ a) :: own_help (env w)) w).
Proof.
  unfold runHelp, bind, index, ret, imported, print, console_log.
  cbn [List.length Nat.eqb nth_error].
  destruct (a =? "help")%string; [reflexivity |].
  destruct (a =? name (runCommand (env w)))%string; [reflexivity |].
  destruct (a =? name (versionCommand (env w)))%string; [reflexivity |].
  rewrite env_emit, emit_emit. reflexivity.
Qed.

(** The first row whose condition holds, computed. *)
Lemma fired_nil (e : Env) : fired e [] = Some row_own.
Proof. reflexivity. Qed.

Lemma fired_cons (e : Env) (a : string) (rest : list string) :
  fired e (a :: rest) =
  Some (if (a =? "help")%string then row_own
        else if (a =? name (runCommand e))%string then row_run
        else if (a =? name (versionCommand e))%string then row_version
        else row_other).
Proof.
  unfold fired, rows; cbn [find row_cond first_is].
  destruct (a =? "help")%string; [reflexivity |].
  destruct (a =? name (runCommand e))%string; [reflexivity |].
  destruct (a =? name (versionCommand e))%string; reflexivity.
Qed.

(** The second comparison: an argument list that starts with the
    registered name of the run descriptor, not the token [help], runs the
    help operation of that descriptor and nothing else. *)
Lemma runHelp_at_run_name (a : string) (rest : list string) (w : World) :
  a <> "help" ->
  a = name (runCommand (env w)) ->
  runHelp' (a :: rest) w = Ok tt (emit (runCommand_help (env w)) w).
Proof.
  intros Hhelp Hrun.
  rewrite runHelp_cons.
  apply String.eqb_neq in Hhelp; rewrite Hhelp.
  apply String.eqb_eq in Hrun; rewrite Hrun.
  reflexivity.
Qed.

(** The third comparison: an argument list that starts with the
    registered name of the version descriptor, neither the token [help]
    nor the name of the run descriptor, runs the help operation of the
    version descriptor and nothing else. *)
Lemma runHelp_at_version_name (a : string) (rest : list string) (w : World) :
  a <> "help" ->
  a <> name (runCommand (env w)) ->
  a = name (versionCommand (env w)) ->
  runHelp' (a :: rest) w = Ok tt (emit (versionCommand_help (env w)) w).
Proof.
  intros Hhelp Hrun Hversion.
  rewrite runHelp_cons.
  apply String.eqb_neq in Hhelp; rewrite Hhelp.
  apply String.eqb_neq in Hrun; rewrite Hrun.
  apply String.eqb_eq in Hversion; rewrite Hversion.
  reflexivity.
Qed.

(** C2, as amended: provided the run descriptor is registered under the
    name [run] (the code compares [args[0]] with that registered name, not
    with a literal), for the input [args = ["run"]] [runHelp] invokes the
    help operation of the run descriptor and writes exactly what that
    operation renders, nothing more. *)
Theorem runHelp_routes_to_run (w : World) :
  name (runCommand (env w)) = "run" ->
  runHelp' ["run"] w = Ok tt (emit (runCommand_help (env w)) w).
Proof.
  intros Hname.
  apply runHelp_at_run_name.
  - discriminate.
  - now rewrite Hname.
Qed.

(** C3, as amended: provided the version descriptor is registered under
    the name [version] and the run descriptor under another name, for the
    input [args = ["version"]] [runHelp] invokes the help operation of the
    version descriptor and writes exactly what that operation renders,
    nothing more. *)
Theorem runHelp_routes_to_version (w : World) :
  name (versionCommand (env w)) = "version" ->
  name (runCommand (env w)) <> "version" ->
  runHelp' ["version"] w = Ok tt (emit (versionCommand_help (env w)) w).
Proof.
  intros Hname Hrun.
  apply runHelp_at_version_name.
  - discriminate.
  - intros Heq. apply Hrun. now rewrite <- Heq.
  - now rewrite Hname.
Qed.

(** C5: [runHelp] is total and never throws.  For every argument list,
    the empty one included, exactly one row of the decision table fires
    (the first whose condition holds), and the call returns the unit
    value after writing what that row prescribes; no read of [args[0]]
    falls outside [args], since a checked read never faults. *)
Theorem runHelp_total (args : list string) (w : World) :
  exists! r : Row,
    fired (env w) args = Some r /\
    runHelp' args w =
    Ok tt (emit (row_action Command_help runCommand_help versionCommand_help
                   (env w) args r) w).
Proof.
  destruct args as [| a rest].
  - exists row_own; split.
    + split; [apply fired_nil | apply runHelp_nil].
    + intros r [Hr _]. rewrite fired_nil in Hr. congruence.
  - exists (if (a =? "help")%string then row_own
            else if (a =? name (runCommand (env w)))%string then row_run
            else if (a =? name (versionCommand (env w)))%string then row_version
            else row_other); split.
    + split; [apply fired_cons |].
      rewrite runHelp_cons.
      destruct (a =? "help")%string; [reflexivity |].
      destruct (a =? name (runCommand (env w)))%string; [reflexivity |].
      destruct (a =? name (versionCommand (env w)))%string; reflexivity.
    + intros r [Hr _]. rewrite fired_cons in Hr. congruence.
Qed.

(** What a call writes, as a function of the imported objects and the
    arguments alone. *)
Lemma runHelp_output (args : list string) (w : World) :
  exists render : Env -> list string,
    forall w' : World, env w' = env w ->
      runHelp' args w' = Ok tt (emit (render (env w)) w').
Proof.
  destruct args as [| a rest].
  - exists own_help. intros w' He. rewrite runHelp_nil, He. reflexivity.
  - exists (fun e =>
      if (a =? "help")%string then own_help e
      else if (a =? name (runCommand e))%string then runCommand_help e
      else if (a =? name (versionCommand e))%string then versionCommand_help e
      else ("Unrecognized subcommand: " ++ a) :: own_help e).
    intros w' He. rewrite runHelp_cons, He.
    destruct (a =? "help")%string; [reflexivity |].
    destruct (a =? name (runCommand (env w)))%string; [reflexivity |].
    destruct (a =? name (versionCommand (env w)))%string; reflexivity.
Qed.

(** C7: [runHelp] is idempotent and stateless.  For every argument list,
    two calls in succession with the same arguments write the same
    output, and the first call leaves the imported descriptors as it
    found them: all it changes is standard output. *)
Theorem runHelp_idempotent (args : list string) (w : World) :
  exists out : list string,
    runHelp' args w = Ok tt (emit out w) /\
    runHelp' args (emit out w) = Ok tt (emit out (emit out w)) /\
    env (emit out w) = env w.
Proof.
  destruct (runHelp_output args w) as [render Hrender].
  exists (render (env w)).
  split; [| split].
  - apply Hrender. reflexivity.
  - apply Hrender. apply env_emit.
  - apply env_emit.
Qed.

(** C9: only the first argument is observed.  Two non-empty argument
    lists with the same first element give the same run: the elements
    after [args[0]] affect neither the branch nor the output. *)
Theorem runHelp_reads_first_argument_only
    (a : string) (rest1 rest2 : list string) (w : World) :
  runHelp' (a :: rest1) w = runHelp' (a :: rest2) w.
Proof.
  rewrite !runHelp_cons. reflexivity.
Qed.

End Dispatch.

(** ** What is printed when [help] prints the help body *)

Section Usage.

Variable runCommand_help : Env -> list string.
Variable versionCommand_help : Env -> list string.

Local Abbreviation runHelp' := (runHelp Command_help_spec runCommand_help versionCommand_help).
Local Abbreviation usage_of e := (usage_block (runCommand e) (versionCommand e)).

(** C1: for [args = []] and for [args = ["help"]], [runHelp] prints exactly
    the usage block of section 6 of the specification, byte for byte (the
    blank after "for" and the line of four blanks included), its last two
    lines interpolated from the name and the description of the run and
    of the version descriptor. *)
Theorem runHelp_prints_usage_block (w : World) :
  runHelp' [] w = Ok tt (emit [usage_of (env w)] w) /\
  runHelp' ["help"] w = Ok tt (emit [usage_of (env w)] w).
Proof.
  split.
  - rewrite runHelp_nil. unfold Command_help_spec.
    now rewrite getHelpBody_usage_block.
  - rewrite runHelp_cons. rewrite String.eqb_refl. unfold Command_help_spec.
    now rewrite getHelpBody_usage_block.
Qed.

(** C4: for every non-empty argument list whose first element is neither
    [help] nor the registered name of the run descriptor nor that of the
    version descriptor, [runHelp] prints the line
    [Unrecognized subcommand: <args[0]>], then at once the full usage
    block of the dispatcher, and nothing else. *)
Theorem runHelp_unrecognized (a : string) (rest : list string) (w : World) :
  a <> "help" ->
  a <> name (runCommand (env w)) ->
  a <> name (versionCommand (env w)) ->
  runHelp' (a :: rest) w =
  Ok tt (emit ["Unrecognized subcommand: " ++ a; usage_of (env w)] w).
Proof.
  intros Hhelp Hrun Hversion.
  rewrite runHelp_cons.
  apply String.eqb_neq in Hhelp, Hrun, Hversion.
  rewrite Hhelp, Hrun, Hversion.
  unfold Command_help_spec. now rewrite getHelpBody_usage_block.
Qed.

(** C6: the usage block is generated at render time from the live
    descriptors.  Whatever the descriptors hold, and however their names
    and descriptions are reassigned before the call, the help body
    computed by the one [helpCommand] object carries the values the
    descriptors have at the time of the call, [runHelp] hands those same
    descriptors to the help operation, and the subcommand list that is
    printed shows them; nothing is captured when the command is created. *)
Theorem usage_block_is_live
    (Command_help : Command.t -> Env -> list string)
    (change : Env -> Env) (w : World) :
  let live := change (env w) in
  Command.getHelpBody helpCommand live =
    usage_block (runCommand live) (versionCommand live) /\
  (mutate change ;;
   runHelp Command_help runCommand_help versionCommand_help []) w =
    Ok tt (emit (Command_help helpCommand live) (assign change w)) /\
  (mutate change ;; runHelp' []) w =
    Ok tt (emit [usage_of live] (assign change w)).
Proof.
  cbv zeta. split; [| split].
  - apply getHelpBody_usage_block.
  - unfold bind, mutate. now rewrite runHelp_nil.
  - unfold bind, mutate. rewrite runHelp_nil.
    unfold Command_help_spec. now rewrite getHelpBody_usage_block.
Qed.

End Usage.

(** ** The command object *)

(** C8: the dispatcher registers itself as a command whose name is [help],
    whose description is [Show the usage of the passed subcommand], and
    whose run callback is [runHelp]. *)
Theorem helpCommand_registration :
  Command.name helpCommand = "help" /\
  Command.description helpCommand = "Show the usage of the passed subcommand" /\
  Command.runCallback helpCommand = fn_runHelp /\
  forall Command_help runCommand_help versionCommand_help,
    call Command_help runCommand_help versionCommand_help
         (Command.runCallback helpCommand) =
    runHelp Command_help runCommand_help versionCommand_help.
Proof.
  repeat split.
Qed.

(** C10: the token [help] takes precedence over the descriptors' names.
    The comparisons are made in order, so [args = ["help"]] runs the help
    operation of the dispatcher itself whatever the run and the version
    descriptor are called, [help] included; the outcome is the same for
    any two choices of the descriptors' help operations, neither of which
    is therefore invoked. *)
Theorem help_token_has_precedence
    (Command_help : Command.t -> Env -> list string)
    (run_help version_help run_help' version_help' : Env -> list string)
    (rest : list string) (w : World) :
  runHelp Command_help run_help version_help ("help" :: rest) w =
    Ok tt (emit (Command_help helpCommand (env w)) w) /\
  runHelp Command_help run_help version_help ("help" :: rest) w =
    runHelp Command_help run_help' version_help' ("help" :: rest) w.
Proof.
  rewrite !runHelp_cons. rewrite String.eqb_refl. split; reflexivity.
Qed.

(** ** The properties on concrete inputs *)

Local Abbreviation run_double :=
  (runHelp double_Command_help double_run_help double_version_help).
Local Abbreviation run_spec :=
  (runHelp Command_help_spec double_run_help double_version_help).
Local Abbreviation world_of e := {| env := e; stdout := [] |}.

Example usage_block_double :
  usage_block double_run double_version =
  "USAGE:" ++ LF ++
  LF ++
  "$ wasmer-js help [SUBCOMMAND]" ++ LF ++
  LF ++
  "ARGUMENTS:" ++ LF ++
  LF ++
  "[SUBCOMMAND] - The subcommand we want to see the help message for " ++ LF ++
  "    " ++ LF ++
  "    The available subcommands (other than help) are:" ++ LF ++
  "    run - Run a WebAssembly file" ++ LF ++
  "    version - Print the version".
Proof. reflexivity. Qed.

Example runHelp_double_empty :
  stdout_of (run_double [] double_world) = Some ["HELP of help"].
Proof. reflexivity. Qed.

Example runHelp_double_run :
  stdout_of (run_double ["run"; "extra"] double_world) = Some ["RUN HELP of run"].
Proof. reflexivity. Qed.

Example runHelp_double_version :
  stdout_of (run_double ["version"] double_world) = Some ["VERSION HELP of version"].
Proof. reflexivity. Qed.

Example runHelp_double_bogus :
  stdout_of (run_double ["bogus"] double_world) =
  Some ["Unrecognized subcommand: bogus"; "HELP of help"].
Proof. reflexivity. Qed.

(** With both siblings registered as [help], the token still selects the
    dispatcher's own help. *)
Example runHelp_clashing_names :
  stdout_of (run_double ["help"] (world_of clashing_env)) = Some ["HELP of help"].
Proof. reflexivity. Qed.

(** A description reassigned before the call shows in the output. *)
Example runHelp_after_reassignment :
  stdout_of
    ((mutate (fun e => {| runCommand := {| name := name (runCommand e);
                                           description := "Execute a module" |};
                          versionCommand := versionCommand e |}) ;;
      run_spec []) double_world) =
  Some [usage_block {| name := "run"; description := "Execute a module" |}
                    double_version].
Proof. reflexivity. Qed.

(** Witness of [runHelp_routes_to_run]: the run command registered as
    [run]. *)
Lemma runHelp_routes_to_run_witness :
  name (runCommand (env double_world)) = "run" /\
  run_double ["run"] double_world =
  Ok tt (emit (double_run_help (env double_world)) double_world).
Proof.
  split.
  - reflexivity.
  - apply (runHelp_routes_to_run double_Command_help double_run_help
             double_version_help double_world).
    reflexivity.
Defined.

(** Witness of [runHelp_routes_to_version]: the commands registered as
    [run] and [version]. *)
Lemma runHelp_routes_to_version_witness :
  name (versionCommand (env double_world)) = "version" /\
  name (runCommand (env double_world)) <> "version" /\
  run_double ["version"] double_world =
  Ok tt (emit (double_version_help (env double_world)) double_world).
Proof.
  split; [| split].
  - reflexivity.
  - discriminate.
  - apply (runHelp_routes_to_version double_Command_help double_run_help
             double_version_help double_world).
    + reflexivity.
    + discriminate.
Defined.

(** Witness of [runHelp_unrecognized]: the input [["bogus"]]. *)
Lemma runHelp_unrecognized_witness :
  "bogus" <> "help" /\
  "bogus" <> name (runCommand (env double_world)) /\
  "bogus" <> name (versionCommand (env double_world)) /\
  run_spec ["bogus"] double_world =
  Ok tt (emit ["Unrecognized subcommand: " ++ "bogus";
               usage_block double_run double_version] double_world).
Proof.
  split; [| split; [| split]].
  - discriminate.
  - discriminate.
  - discriminate.
  - apply (runHelp_unrecognized double_run_help double_version_help
             "bogus" [] double_world); discriminate.
Defined.

(** C2 as stated fails: with the run command registered as [exec], the
    input [["run"]] is reported as unrecognized, and what is written is
    not what the help operation of the run descriptor renders. *)
Lemma runHelp_run_token_not_routed :
  run_double ["run"] (world_of renamed_run_env) =
    Ok tt {| env := renamed_run_env;
             stdout := ["Unrecognized subcommand: run"; "HELP of help"] |} /\
  run_double ["run"] (world_of renamed_run_env) <>
    Ok tt (emit (double_run_help renamed_run_env) (world_of renamed_run_env)).
Proof.
  split.
  - reflexivity.
  - discriminate.
Qed.

(** C3 as stated fails, in two ways: with the version command registered
    as [v], the input [["version"]] is reported as unrecognized; with the
    run command registered as [version] too, the input reaches the help
    operation of the run descriptor.  Either way what is written is not
    what the help operation of the version descriptor renders. *)
Lemma runHelp_version_token_not_routed :
  (run_double ["version"] (world_of renamed_version_env) =
     Ok tt {| env := renamed_version_env;
              stdout := ["Unrecognized subcommand: version"; "HELP of help"] |} /\
   run_double ["version"] (world_of renamed_version_env) <>
     Ok tt (emit (double_version_help renamed_version_env)
                 (world_of renamed_version_env))) /\
  (run_double ["version"] (world_of shadowing_env) =
     Ok tt {| env := shadowing_env; stdout := ["RUN HELP of version"] |} /\
   run_double ["version"] (world_of shadowing_env) <>
     Ok tt (emit (double_version_help shadowing_env) (world_of shadowing_env))).
Proof.
  split; split; try reflexivity; discriminate.
Qed.

(** * Further properties of the module *)

(** ** Strings *)

Lemma count_LF_append (s t : string) :
  count_LF (s ++ t) = count_LF s + count_LF t.
Proof.
  induction s as [| c s IH]; simpl.
  - reflexivity.
  - rewrite IH. lia.
Qed.

(** X7: the help body has exactly ten line feeds of its own.  Every
    further line feed of the usage text comes from a name or a description
    of the run or of the version descriptor, so with fields free of line
    feeds the text is eleven lines long. *)
Theorem getHelpBody_line_feeds (e : Env) :
  count_LF (Command.getHelpBody helpCommand e) =
  10 + count_LF (name (runCommand e)) + count_LF (description (runCommand e))
     + count_LF (name (versionCommand e))
     + count_LF (description (versionCommand e)).
Proof.
  unfold helpCommand, command; cbn [Command.getHelpBody].
  rewrite !count_LF_append.
  cbn. lia.
Qed.

(** ** Which requests reach which help operation *)

Section Reach.

Variable Command_help : Command.t -> Env -> list string.
Variable runCommand_help : Env -> list string.
Variable versionCommand_help : Env -> list string.

Local Abbreviation runHelp' := (runHelp Command_help runCommand_help versionCommand_help).

(** X1: no argument and the token [help] are the same request.  For every
    registry, every state of standard output and every choice of the help
    operations, [runHelp] on the empty list and on a list that starts with
    [help] do the same thing. *)
Theorem runHelp_no_argument_is_help_token (rest : list string) (w : World) :
  runHelp' [] w = runHelp' ("help" :: rest) w.
Proof.
  rewrite runHelp_nil, runHelp_cons.
  now rewrite String.eqb_refl.
Qed.

(** X4: calls compose by concatenation.  What a call writes depends on its
    arguments and on the imported descriptors, never on what standard
    output already holds: two calls in a row leave the earlier output in
    place and append what each of them writes when run on its own. *)
Theorem runHelp_sequence (args1 args2 : list string) (w : World) :
  exists out1 out2 : list string,
    stdout_of (runHelp' args1 (fresh (env w))) = Some out1 /\
    stdout_of (runHelp' args2 (fresh (env w))) = Some out2 /\
    (runHelp' args1 ;; runHelp' args2) w = Ok tt (emit (out1 ++ out2)%list w).
Proof.
  destruct (runHelp_output Command_help runCommand_help versionCommand_help
              args1 w) as [render1 H1].
  destruct (runHelp_output Command_help runCommand_help versionCommand_help
              args2 w) as [render2 H2].
  exists (render1 (env w)), (render2 (env w)).
  split; [| split].
  - rewrite (H1 (fresh (env w)) eq_refl). reflexivity.
  - rewrite (H2 (fresh (env w)) eq_refl). reflexivity.
  - unfold bind. rewrite (H1 w eq_refl).
    rewrite (H2 (emit (render1 (env w)) w) (env_emit _ _)).
    now rewrite emit_emit.
Qed.

(** X5: the dispatch follows a renaming.  The comparison of line 12 reads
    [runCommand.name] when [runHelp] is called: once the run descriptor
    has been renamed, a request for the new name (any name but [help])
    reaches the help operation of the run descriptor, which sees the
    renamed descriptor. *)
Theorem runHelp_dispatch_follows_rename
    (n : string) (rest : list string) (w : World) :
  n <> "help" ->
  (mutate (rename_run n) ;; runHelp' (n :: rest)) w =
  Ok tt (emit (runCommand_help (rename_run n (env w))) (assign (rename_run n) w)).
Proof.
  intros Hhelp.
  unfold bind, mutate.
  apply runHelp_at_run_name.
  - exact Hhelp.
  - reflexivity.
Qed.

(** X6: unrecognized tokens are told apart.  Two requests whose first
    elements are different and are both unrecognized (neither [help] nor a
    registered name) never produce the same result: the message of line 20
    carries the token as it was given. *)
Theorem unrecognized_tokens_are_told_apart
    (a b : string) (rest1 rest2 : list string) (w : World) :
  a <> "help" -> a <> name (runCommand (env w)) ->
  a <> name (versionCommand (env w)) ->
  b <> "help" -> b <> name (runCommand (env w)) ->
  b <> name (versionCommand (env w)) ->
  a <> b ->
  runHelp' (a :: rest1) w <> runHelp' (b :: rest2) w.
Proof.
  intros Ha1 Ha2 Ha3 Hb1 Hb2 Hb3 Hab.
  rewrite !runHelp_cons.
  apply String.eqb_neq in Ha1, Ha2, Ha3, Hb1, Hb2, Hb3.
  rewrite Ha1, Ha2, Ha3, Hb1, Hb2, Hb3.
  unfold emit; cbn [env stdout].
  intros H. injection H as H.
  apply app_inv_head in H. injection H as H.
  apply Hab. exact H.
Qed.

End Reach.

(** X2: the help operation of the run descriptor is dead exactly when that
    descriptor is registered as [help].  With that name no argument list
    makes [runHelp] depend on the operation; with any other name the
    request for the name does. *)
Theorem run_help_dead_iff_named_help (e : Env) :
  (forall (Command_help : Command.t -> Env -> list string)
          (run_help run_help' version_help : Env -> list string)
          (args : list string) (w : World),
      env w = e ->
      runHelp Command_help run_help version_help args w =
      runHelp Command_help run_help' version_help args w)
  <-> name (runCommand e) = "help".
Proof.
  split.
  - intros H.
    destruct (String.eqb_spec (name (runCommand e)) "help") as [Heq | Hne];
      [exact Heq | exfalso].
    specialize (H (fun _ _ => []) (fun _ => ["run"]) (fun _ => []) (fun _ => [])
                  [name (runCommand e)] (fresh e) eq_refl).
    rewrite !runHelp_cons in H. cbn [env fresh] in H.
    apply String.eqb_neq in Hne. rewrite Hne, String.eqb_refl in H.
    discriminate H.
  - intros Hname ch rh rh' vh args w He. subst e.
    destruct args as [| a rest].
    + now rewrite !runHelp_nil.
    + rewrite !runHelp_cons, Hname.
      destruct (a =? "help")%string; reflexivity.
Qed.

(** X3: the help operation of the version descriptor is dead exactly when
    that descriptor is registered as [help] or under the name of the run
    descriptor, whose comparison comes first.  In those two cases no
    argument list makes [runHelp] depend on the operation; in every other
    case the request for the name does. *)
Theorem version_help_dead_iff_shadowed (e : Env) :
  (forall (Command_help : Command.t -> Env -> list string)
          (run_help version_help version_help' : Env -> list string)
          (args : list string) (w : World),
      env w = e ->
      runHelp Command_help run_help version_help args w =
      runHelp Command_help run_help version_help' args w)
  <-> name (versionCommand e) = "help" \/
      name (versionCommand e) = name (runCommand e).
Proof.
  split.
  - intros H.
    destruct (String.eqb_spec (name (versionCommand e)) "help") as [Heq | Hne];
      [left; exact Heq |].
    destruct (String.eqb_spec (name (versionCommand e)) (name (runCommand e)))
      as [Heq | Hne']; [right; exact Heq | exfalso].
    specialize (H (fun _ _ => []) (fun _ => []) (fun _ => ["version"]) (fun _ => [])
                  [name (versionCommand e)] (fresh e) eq_refl).
    rewrite !runHelp_cons in H. cbn [env fresh] in H.
    apply String.eqb_neq in Hne, Hne'.
    rewrite Hne, Hne', String.eqb_refl in H.
    discriminate H.
  - intros Hname ch rh vh vh' args w He. subst e.
    destruct args as [| a rest].
    + now rewrite !runHelp_nil.
    + rewrite !runHelp_cons.
      destruct (String.eqb_spec a "help") as [| Hhelp]; [reflexivity |].
      destruct (String.eqb_spec a (name (runCommand (env w)))) as [| Hrun];
        [reflexivity |].
      destruct (String.eqb_spec a (name (versionCommand (env w)))) as [Hv |];
        [| reflexivity].
      exfalso. destruct Hname as [Hname | Hname]; congruence.
Qed.

(** ** The further properties on concrete inputs *)

(** Witness of [runHelp_dispatch_follows_rename]: the run command renamed
    to [exec], then asked for under that name. *)
Lemma runHelp_dispatch_follows_rename_witness :
  "exec" <> "help" /\
  stdout_of ((mutate (rename_run "exec") ;;
              runHelp double_Command_help double_run_help double_version_help
                ["exec"]) double_world) =
  Some ["RUN HELP of exec"].
Proof.
  split.
  - discriminate.
  - rewrite (runHelp_dispatch_follows_rename double_Command_help double_run_help
               double_version_help "exec" [] double_world).
    + reflexivity.
    + discriminate.
Defined.

(** Witness of [unrecognized_tokens_are_told_apart]: the tokens [bogus]
    and [nope]. *)
Lemma unrecognized_tokens_are_told_apart_witness :
  ("bogus" <> "nope") /\
  runHelp double_Command_help double_run_help double_version_help
    ["bogus"] double_world <>
  runHelp double_Command_help double_run_help double_version_help
    ["nope"; "more"] double_world.
Proof.
  split.
  - discriminate.
  - apply (unrecognized_tokens_are_told_apart double_Command_help
             double_run_help double_version_help
             "bogus" "nope" [] ["more"] double_world); discriminate.
Defined.
